(** * web3_privacy_scorer: a shallow embedding of [app.py]

    The script is a registry of three example profiles, an additive
    scoring function, two renderers and an [argparse] front end.  Python
    [int] is modelled by [Z], [str] by [string] (a sequence of code points
    below 256), a [dict] by an association list in insertion order, and the
    text written by [print] by the list of the strings printed. *)

From Stdlib Require Import ZArith List String Ascii Bool Lia DecimalString.
Import ListNotations.

Open Scope list_scope.
Open Scope string_scope.
Open Scope Z_scope.

(** ** The Python built-ins the script relies on *)

Module Py.

Definition dquote : ascii := "034"%char.
Definition backslash : ascii := "092"%char.
Definition newline : ascii := "010"%char.

Definition nl : string := String newline EmptyString.

(** [str.lower] on one code point of the 8-bit range: [A]-[Z] and the
    Latin-1 capitals (192-222 except the multiplication sign 215) move up
    by 32, everything else stays. *)
Definition lower_char (c : ascii) : ascii :=
  let n := N_of_ascii c in
  if ((65 <=? n) && (n <=? 90))%N
     || ((192 <=? n) && (n <=? 222) && negb (n =? 215))%N
  then ascii_of_N (n + 32)
  else c.

Fixpoint lower (s : string) : string :=
  match s with
  | EmptyString => EmptyString
  | String c s' => String (lower_char c) (lower s')
  end.

(** Truth value of a [str]: only the empty string is false. *)
Definition truthy (s : string) : bool :=
  match s with
  | EmptyString => false
  | String _ _ => true
  end.

(** [x or default] for an optional string [x]. *)
Definition or_else (o : option string) (default : string) : string :=
  match o with
  | None => default
  | Some s => if truthy s then s else default
  end.

(** [str(n)] for an [int]. *)
Definition str (z : Z) : string := NilZero.string_of_int (Z.to_int z).

(** [sep.join(parts)]. *)
Definition join (sep : string) (parts : list string) : string :=
  String.concat sep parts.

(** [s.startswith(p)]. *)
Fixpoint startswith (p s : string) : bool :=
  match p, s with
  | EmptyString, _ => true
  | String a p', String b s' => Ascii.eqb a b && startswith p' s'
  | String _ _, EmptyString => false
  end.

(** [s.replace(old, new)] for a non-empty [old]: occurrences are found from
    left to right and do not overlap.  [skip] counts the characters of the
    occurrence just replaced that are still to be dropped. *)
Fixpoint replace_from (old new : string) (skip : nat) (s : string) : string :=
  match s with
  | EmptyString => EmptyString
  | String c s' =>
      match skip with
      | S k => replace_from old new k s'
      | O =>
          if startswith old s
          then new ++ replace_from old new (Nat.pred (String.length old)) s'
          else String c (replace_from old new O s')
      end
  end.

(** With an empty [old], Python puts [new] before every character and at
    the end. *)
Fixpoint intersperse (new s : string) : string :=
  match s with
  | EmptyString => new
  | String c s' => new ++ String c (intersperse new s')
  end.

Definition replace (s old new : string) : string :=
  match old with
  | EmptyString => intersperse new s
  | String _ _ => replace_from old new O s
  end.

(** A [dict] with string keys, in insertion order. *)
Definition dict (V : Type) : Type := list (string * V).

Fixpoint get {V : Type} (d : dict V) (k : string) : option V :=
  match d with
  | [] => None
  | (k', v) :: d' => if String.eqb k' k then Some v else get d' k
  end.

(** [d[k] = v]: an existing key keeps its place, a new one goes last. *)
Fixpoint set {V : Type} (d : dict V) (k : string) (v : V) : dict V :=
  match d with
  | [] => [(k, v)]
  | (k', v') :: d' =>
      if String.eqb k' k then (k', v) :: d' else (k', v') :: set d' k v
  end.

End Py.

(** ** The data model *)

Record PrivacyProfile : Type := mkPrivacyProfile {
  name : string;
  description : string;
  uses_zk : bool;
  uses_fhe : bool;
  open_source : bool;
  audited : bool;
  soundness_focus : bool
}.

Definition aztec : PrivacyProfile :=
  {| name := "Aztec-like L2";
     description :=
       "Inspired by Aztec: zk rollup with privacy-preserving smart contracts.";
     uses_zk := true;
     uses_fhe := false;
     open_source := true;
     audited := true;
     soundness_focus := true |}.

Definition zama : PrivacyProfile :=
  {| name := "Zama-like FHE stack";
     description :=
       "Inspired by Zama: fully homomorphic encryption for Web3 and cryptography.";
     uses_zk := false;
     uses_fhe := true;
     open_source := true;
     audited := false;
     soundness_focus := true |}.

Definition soundness : PrivacyProfile :=
  {| name := "Soundness-focused lab";
     description :=
       "Inspired by soundness research labs: formal verification and proofs first.";
     uses_zk := true;
     uses_fhe := false;
     open_source := false;
     audited := true;
     soundness_focus := true |}.

Definition PROFILES : Py.dict PrivacyProfile :=
  [ ("aztec", aztec); ("zama", zama); ("soundness", soundness) ].

(** ** Scoring *)

Definition score_profile (profile : PrivacyProfile) : Z :=
  let score := 0 in
  let score := if uses_zk profile then score + 30 else score in
  let score := if uses_fhe profile then score + 30 else score in
  let score := if open_source profile then score + 15 else score in
  let score := if audited profile then score + 15 else score in
  let score := if soundness_focus profile then score + 10 else score in
  Z.min score 100.

(** ** The text renderer *)

Definition yes_no (b : bool) : string := if b then "yes" else "no".

Definition summarize_profile (profile : PrivacyProfile) : string :=
  let score := score_profile profile in
  let flags :=
    [ "Uses zero-knowledge proofs: " ++ yes_no (uses_zk profile);
      "Uses fully homomorphic encryption: " ++ yes_no (uses_fhe profile);
      "Open source code: " ++ yes_no (open_source profile);
      "External audits: " ++ yes_no (audited profile);
      "Formal soundness focus: " ++ yes_no (soundness_focus profile) ] in
  let lines :=
    List.app
      [ "Name: " ++ name profile;
        "Description: " ++ description profile;
        "";
        "Features:" ]
      (List.app
         (map (fun f => "  - " ++ f) flags)
         [ "";
           "Estimated privacy-strength score: " ++ Py.str score ++ "/100";
           "";
           "Note: This score is a toy heuristic for educational purposes only.";
           "Always rely on official audits, specifications, and documentation." ]) in
  Py.join Py.nl lines.

(** ** The parsed command line *)

Record Namespace : Type := mkNamespace {
  ns_profile : option string;
  ns_custom : bool;
  ns_name : option string;
  ns_description : option string;
  ns_zk : bool;
  ns_fhe : bool;
  ns_open_source : bool;
  ns_audited : bool;
  ns_soundness : bool;
  ns_list_profiles : bool;
  ns_json : bool
}.

Definition profile_from_args (args : Namespace) : PrivacyProfile :=
  {| name := Py.or_else (ns_name args) "Custom Web3 project";
     description :=
       Py.or_else (ns_description args)
                  "User-defined Web3 project privacy profile.";
     uses_zk := ns_zk args;
     uses_fhe := ns_fhe args;
     open_source := ns_open_source args;
     audited := ns_audited args;
     soundness_focus := ns_soundness args |}.

(** The lines [list_profiles] prints. *)
Definition list_profiles : list string :=
  "Built-in example profiles related to Web3 privacy and soundness:"
  :: map (fun '(key, profile) => "- " ++ key ++ ": " ++ name profile) PROFILES.

(** ** The structured renderer *)

(** The values [asdict] yields for this dataclass, plus the score. *)
Inductive value : Type :=
| VStr (s : string)
| VBool (b : bool)
| VInt (z : Z).

Definition asdict (profile : PrivacyProfile) : Py.dict value :=
  [ ("name", VStr (name profile));
    ("description", VStr (description profile));
    ("uses_zk", VBool (uses_zk profile));
    ("uses_fhe", VBool (uses_fhe profile));
    ("open_source", VBool (open_source profile));
    ("audited", VBool (audited profile));
    ("soundness_focus", VBool (soundness_focus profile)) ].

Definition quoted (s : string) : string :=
  String Py.dquote (s ++ String Py.dquote EmptyString).

(** The [val] of one entry: the [bool] test comes first, then [int], and
    anything else is quoted with its double quotes replaced. *)
Definition render_value (v : value) : string :=
  match v with
  | VBool b => if b then "true" else "false"
  | VInt z => Py.str z
  | VStr s =>
      quoted (Py.replace s
                (String Py.dquote EmptyString)
                (String Py.backslash (String Py.dquote EmptyString)))
  end.

(** The body of the [enumerate] loop, from index [i] on; [len] is
    [len(data)]. *)
Fixpoint export_entries (len i : Z) (items : Py.dict value) : list string :=
  match items with
  | [] => []
  | (k, v) :: rest =>
      let val := render_value v in
      let comma := if i <? len - 1 then "," else "" in
      ("  " ++ quoted k ++ ": " ++ val ++ comma)
        :: export_entries len (i + 1) rest
  end.

Definition export_data (profile : PrivacyProfile) : Py.dict value :=
  Py.set (asdict profile) "score" (VInt (score_profile profile)).

Definition export_json (profile : PrivacyProfile) : string :=
  let data := export_data profile in
  let parts :=
    List.app ["{"]
      (List.app (export_entries (Z.of_nat (List.length data)) 0 data) ["}"]) in
  Py.join Py.nl parts.

(** ** The command line

    [main] builds an [argparse] parser with the default help option, a
    mutually exclusive group holding [--profile] and [--custom], and nine
    further options.  The command line is modelled after option
    recognition: one [argument] per option occurrence, in the order given,
    a value-taking option together with its value, and one
    [ArgUnrecognized] per argument the parser sets aside as unrecognised.
    A command line on which recognition itself fails has no counterpart
    here: a value-taking option without its value, a flag with a value
    attached by an equals sign, an ambiguous abbreviation. *)

Inductive argument : Type :=
| ArgHelp
| ArgProfile (key : string)
| ArgCustom
| ArgName (text : string)
| ArgDescription (text : string)
| ArgZk
| ArgFhe
| ArgOpenSource
| ArgAudited
| ArgSoundness
| ArgListProfiles
| ArgJson
| ArgUnrecognized (token : string).

Inductive usage_error : Type :=
| NotAllowedWith (option_string other : string)
| UnrecognizedArguments (extras : list string).

Inductive parse_result : Type :=
| Parsed (args : Namespace)
| HelpRequested
| UsageError (e : usage_error).

(** The namespace before any option is seen: [store] options default to
    [None], [store_true] options to [False]. *)
Definition defaults : Namespace :=
  {| ns_profile := None; ns_custom := false;
     ns_name := None; ns_description := None;
     ns_zk := false; ns_fhe := false; ns_open_source := false;
     ns_audited := false; ns_soundness := false;
     ns_list_profiles := false; ns_json := false |}.

Definition with_profile (o : option string) (a : Namespace) : Namespace :=
  mkNamespace o (ns_custom a) (ns_name a) (ns_description a) (ns_zk a)
    (ns_fhe a) (ns_open_source a) (ns_audited a) (ns_soundness a)
    (ns_list_profiles a) (ns_json a).

Definition with_custom (b : bool) (a : Namespace) : Namespace :=
  mkNamespace (ns_profile a) b (ns_name a) (ns_description a) (ns_zk a)
    (ns_fhe a) (ns_open_source a) (ns_audited a) (ns_soundness a)
    (ns_list_profiles a) (ns_json a).

Definition with_name (o : option string) (a : Namespace) : Namespace :=
  mkNamespace (ns_profile a) (ns_custom a) o (ns_description a) (ns_zk a)
    (ns_fhe a) (ns_open_source a) (ns_audited a) (ns_soundness a)
    (ns_list_profiles a) (ns_json a).

Definition with_description (o : option string) (a : Namespace) : Namespace :=
  mkNamespace (ns_profile a) (ns_custom a) (ns_name a) o (ns_zk a)
    (ns_fhe a) (ns_open_source a) (ns_audited a) (ns_soundness a)
    (ns_list_profiles a) (ns_json a).

Definition with_zk (b : bool) (a : Namespace) : Namespace :=
  mkNamespace (ns_profile a) (ns_custom a) (ns_name a) (ns_description a) b
    (ns_fhe a) (ns_open_source a) (ns_audited a) (ns_soundness a)
    (ns_list_profiles a) (ns_json a).

Definition with_fhe (b : bool) (a : Namespace) : Namespace :=
  mkNamespace (ns_profile a) (ns_custom a) (ns_name a) (ns_description a)
    (ns_zk a) b (ns_open_source a) (ns_audited a) (ns_soundness a)
    (ns_list_profiles a) (ns_json a).

Definition with_open_source (b : bool) (a : Namespace) : Namespace :=
  mkNamespace (ns_profile a) (ns_custom a) (ns_name a) (ns_description a)
    (ns_zk a) (ns_fhe a) b (ns_audited a) (ns_soundness a)
    (ns_list_profiles a) (ns_json a).

Definition with_audited (b : bool) (a : Namespace) : Namespace :=
  mkNamespace (ns_profile a) (ns_custom a) (ns_name a) (ns_description a)
    (ns_zk a) (ns_fhe a) (ns_open_source a) b (ns_soundness a)
    (ns_list_profiles a) (ns_json a).

Definition with_soundness (b : bool) (a : Namespace) : Namespace :=
  mkNamespace (ns_profile a) (ns_custom a) (ns_name a) (ns_description a)
    (ns_zk a) (ns_fhe a) (ns_open_source a) (ns_audited a) b
    (ns_list_profiles a) (ns_json a).

Definition with_list_profiles (b : bool) (a : Namespace) : Namespace :=
  mkNamespace (ns_profile a) (ns_custom a) (ns_name a) (ns_description a)
    (ns_zk a) (ns_fhe a) (ns_open_source a) (ns_audited a) (ns_soundness a)
    b (ns_json a).

Definition with_json (b : bool) (a : Namespace) : Namespace :=
  mkNamespace (ns_profile a) (ns_custom a) (ns_name a) (ns_description a)
    (ns_zk a) (ns_fhe a) (ns_open_source a) (ns_audited a) (ns_soundness a)
    (ns_list_profiles a) b.

(** The parser's loop over the option occurrences, left to right.  The help
    action prints the help and exits at once.  An option of the exclusive
    group is refused when the other one has been seen.  What is not
    recognised is collected in [extras] (most recent first) and reported
    once the loop is over. *)
Fixpoint consume (seen_profile seen_custom : bool) (args : Namespace)
  (extras : list string) (argv : list argument) : parse_result :=
  match argv with
  | [] =>
      match extras with
      | [] => Parsed args
      | _ :: _ => UsageError (UnrecognizedArguments (rev extras))
      end
  | ArgHelp :: _ => HelpRequested
  | ArgProfile key :: rest =>
      if seen_custom
      then UsageError (NotAllowedWith "--profile" "--custom")
      else consume true seen_custom (with_profile (Some key) args) extras rest
  | ArgCustom :: rest =>
      if seen_profile
      then UsageError (NotAllowedWith "--custom" "--profile")
      else consume seen_profile true (with_custom true args) extras rest
  | ArgName text :: rest =>
      consume seen_profile seen_custom (with_name (Some text) args) extras rest
  | ArgDescription text :: rest =>
      consume seen_profile seen_custom
        (with_description (Some text) args) extras rest
  | ArgZk :: rest =>
      consume seen_profile seen_custom (with_zk true args) extras rest
  | ArgFhe :: rest =>
      consume seen_profile seen_custom (with_fhe true args) extras rest
  | ArgOpenSource :: rest =>
      consume seen_profile seen_custom (with_open_source true args) extras rest
  | ArgAudited :: rest =>
      consume seen_profile seen_custom (with_audited true args) extras rest
  | ArgSoundness :: rest =>
      consume seen_profile seen_custom (with_soundness true args) extras rest
  | ArgListProfiles :: rest =>
      consume seen_profile seen_custom
        (with_list_profiles true args) extras rest
  | ArgJson :: rest =>
      consume seen_profile seen_custom (with_json true args) extras rest
  | ArgUnrecognized token :: rest =>
      consume seen_profile seen_custom args (token :: extras) rest
  end.

Definition parse_args (argv : list argument) : parse_result :=
  consume false false defaults [] argv.

(** The body of [main] after [parse_args]: what it prints.  The profile is
    resolved first; [inl] is the early [return] of the unknown-key branch. *)
Definition main_parsed (args : Namespace) : list string :=
  if ns_list_profiles args then list_profiles
  else
    let resolved : list string + PrivacyProfile :=
      match ns_profile args with
      | Some given =>
          if Py.truthy given then
            let key := Py.lower given in
            match Py.get PROFILES key with
            | None =>
                inl ("Unknown profile key. Available options:" :: list_profiles)
            | Some profile => inr profile
            end
          else inr (profile_from_args args)
      | None => inr (profile_from_args args)
      end in
    match resolved with
    | inl printed => printed
    | inr profile =>
        if ns_json args
        then [export_json profile]
        else [summarize_profile profile]
    end.

(** How a run ends: [main] returns after printing, or the parser leaves
    through the help action, or through [parser.error]. *)
Inductive outcome : Type :=
| Returned (printed : list string)
| HelpExit
| UsageExit (e : usage_error).

Definition main (argv : list argument) : outcome :=
  match parse_args argv with
  | Parsed args => Returned (main_parsed args)
  | HelpRequested => HelpExit
  | UsageError e => UsageExit e
  end.

(** The exit status: 0 when [main] returns and after the help, 2 after a
    usage error. *)
Definition exit_status (o : outcome) : Z :=
  match o with
  | Returned _ => 0
  | HelpExit => 0
  | UsageExit _ => 2
  end.

(** What the script's own [print] calls wrote. *)
Definition printed_lines (o : outcome) : list string :=
  match o with
  | Returned printed => printed
  | HelpExit => []
  | UsageExit _ => []
  end.

(** ** A reader for JSON objects

    The yardstick for the structured renderer: a reader of flat JSON objects
    whose values are strings, [true], [false] or integers, after RFC 8259.
    A string may not hold a raw control character, and a backslash must
    start one of the escapes of the grammar. *)

Module Json.

Definition is_ws (c : ascii) : bool :=
  let n := N_of_ascii c in
  ((n =? 32) || (n =? 9) || (n =? 10) || (n =? 13))%N.

Fixpoint skip_ws (s : string) : string :=
  match s with
  | EmptyString => EmptyString
  | String c r => if is_ws c then skip_ws r else s
  end.

Definition is_digit (c : ascii) : bool :=
  let n := N_of_ascii c in ((48 <=? n) && (n <=? 57))%N.

Definition digit_val (c : ascii) : Z := Z.of_N (N_of_ascii c) - 48.

Definition hex_val (c : ascii) : option N :=
  let n := N_of_ascii c in
  if ((48 <=? n) && (n <=? 57))%N then Some (n - 48)%N
  else if ((65 <=? n) && (n <=? 70))%N then Some (n - 55)%N
  else if ((97 <=? n) && (n <=? 102))%N then Some (n - 87)%N
  else None.

Definition hex4 (a b c d : ascii) : option N :=
  match hex_val a, hex_val b, hex_val c, hex_val d with
  | Some x, Some y, Some z, Some w => Some (((x * 16 + y) * 16 + z) * 16 + w)%N
  | _, _, _, _ => None
  end.

Definition push (c : ascii) (r : option (string * string))
  : option (string * string) :=
  match r with
  | Some (text, rest) => Some (String c text, rest)
  | None => None
  end.

(** The character a two-character escape stands for. *)
Definition simple_escape (e : ascii) : option ascii :=
  let n := N_of_ascii e in
  if (n =? 34)%N then Some Py.dquote
  else if (n =? 92)%N then Some Py.backslash
  else if (n =? 47)%N then Some "/"%char
  else if (n =? 98)%N then Some "008"%char
  else if (n =? 102)%N then Some "012"%char
  else if (n =? 110)%N then Some "010"%char
  else if (n =? 114)%N then Some "013"%char
  else if (n =? 116)%N then Some "009"%char
  else None.

(** Reads a string from just after its opening quote: the text it denotes
    and what follows the closing quote.  A [\u] escape above the 8-bit
    range has no counterpart in [string] and is refused. *)
Fixpoint read_string (s : string) : option (string * string) :=
  match s with
  | EmptyString => None
  | String c r =>
      if Ascii.eqb c Py.dquote then Some (EmptyString, r)
      else if Ascii.eqb c Py.backslash then
        match r with
        | EmptyString => None
        | String e r' =>
            if Ascii.eqb e "u"%char then
              match r' with
              | String h1 (String h2 (String h3 (String h4 r''))) =>
                  match hex4 h1 h2 h3 h4 with
                  | Some n =>
                      if (n <? 256)%N
                      then push (ascii_of_N n) (read_string r'')
                      else None
                  | None => None
                  end
              | _ => None
              end
            else
              match simple_escape e with
              | Some x => push x (read_string r')
              | None => None
              end
        end
      else if (N_of_ascii c <? 32)%N then None
      else push c (read_string r)
  end.

Fixpoint read_digits (acc : Z) (s : string) : Z * string :=
  match s with
  | EmptyString => (acc, s)
  | String c r =>
      if is_digit c then read_digits (acc * 10 + digit_val c) r else (acc, s)
  end.

(** An unsigned integer: a lone [0], or digits not starting with [0]. *)
Definition read_nat (s : string) : option (Z * string) :=
  match s with
  | EmptyString => None
  | String c r =>
      if Ascii.eqb c "0"%char then Some (0, r)
      else if is_digit c then Some (read_digits (digit_val c) r)
      else None
  end.

Definition read_int (s : string) : option (Z * string) :=
  match s with
  | EmptyString => None
  | String c r =>
      if Ascii.eqb c "-"%char then
        match read_nat r with
        | Some (n, rest) => Some (- n, rest)
        | None => None
        end
      else read_nat s
  end.

Fixpoint drop (n : nat) (s : string) : string :=
  match n, s with
  | O, _ => s
  | S _, EmptyString => EmptyString
  | S k, String _ r => drop k r
  end.

Definition read_value (s : string) : option (value * string) :=
  match s with
  | EmptyString => None
  | String c r =>
      if Ascii.eqb c Py.dquote then
        match read_string r with
        | Some (text, rest) => Some (VStr text, rest)
        | None => None
        end
      else if Py.startswith "true" s then Some (VBool true, drop 4 s)
      else if Py.startswith "false" s then Some (VBool false, drop 5 s)
      else
        match read_int s with
        | Some (n, rest) => Some (VInt n, rest)
        | None => None
        end
  end.

(** The members of an object, from the start of a member to the end of the
    text.  Every member consumes at least one character, so the length of
    the text is fuel enough. *)
Fixpoint read_members (fuel : nat) (s : string) : option (Py.dict value) :=
  match fuel with
  | O => None
  | S fuel' =>
      match skip_ws s with
      | EmptyString => None
      | String c r =>
          if negb (Ascii.eqb c Py.dquote) then None
          else
            match read_string r with
            | None => None
            | Some (k, r1) =>
                match skip_ws r1 with
                | EmptyString => None
                | String colon r2 =>
                    if negb (Ascii.eqb colon ":"%char) then None
                    else
                      match read_value (skip_ws r2) with
                      | None => None
                      | Some (v, r3) =>
                          match skip_ws r3 with
                          | EmptyString => None
                          | String sep r4 =>
                              if Ascii.eqb sep ","%char then
                                match read_members fuel' r4 with
                                | Some more => Some ((k, v) :: more)
                                | None => None
                                end
                              else if Ascii.eqb sep "}"%char then
                                match skip_ws r4 with
                                | EmptyString => Some [(k, v)]
                                | String _ _ => None
                                end
                              else None
                          end
                      end
                end
            end
      end
  end.

(** [loads text]: the object [text] denotes, if it is one. *)
Definition loads (text : string) : option (Py.dict value) :=
  match skip_ws text with
  | EmptyString => None
  | String c r =>
      if negb (Ascii.eqb c "{"%char) then None
      else
        match skip_ws r with
        | EmptyString => None
        | String c' r' =>
            if Ascii.eqb c' "}"%char then
              match skip_ws r' with
              | EmptyString => Some []
              | String _ _ => None
              end
            else read_members (String.length text) r
        end
  end.

End Json.

(** ** What the claims are measured against *)

(** The sum of the weights of the flags that are set. *)
Definition weight_sum (profile : PrivacyProfile) : Z :=
  (if uses_zk profile then 30 else 0)
  + (if uses_fhe profile then 30 else 0)
  + (if open_source profile then 15 else 0)
  + (if audited profile then 15 else 0)
  + (if soundness_focus profile then 10 else 0).

(** A string with a backslash put before each of its double quotes. *)
Fixpoint escape_quotes (s : string) : string :=
  match s with
  | EmptyString => EmptyString
  | String c r =>
      if Ascii.eqb c Py.dquote
      then String Py.backslash (String Py.dquote (escape_quotes r))
      else String c (escape_quotes r)
  end.

(** [c] occurs in [s]. *)
Fixpoint occurs (c : ascii) (s : string) : bool :=
  match s with
  | EmptyString => false
  | String x r => Ascii.eqb x c || occurs c r
  end.

(** Whether a command line names a given option. *)
Definition is_help (a : argument) : bool :=
  match a with ArgHelp => true | _ => false end.

Definition is_profile (a : argument) : bool :=
  match a with ArgProfile _ => true | _ => false end.

Definition is_custom (a : argument) : bool :=
  match a with ArgCustom => true | _ => false end.

Definition unknown_message : string :=
  "Unknown profile key. Available options:".

(** ** Reading a command line as a whole *)

Definition is_unrecognized (a : argument) : bool :=
  match a with ArgUnrecognized _ => true | _ => false end.

Definition is_zk (a : argument) : bool :=
  match a with ArgZk => true | _ => false end.

Definition is_fhe (a : argument) : bool :=
  match a with ArgFhe => true | _ => false end.

Definition is_open_source (a : argument) : bool :=
  match a with ArgOpenSource => true | _ => false end.

Definition is_audited (a : argument) : bool :=
  match a with ArgAudited => true | _ => false end.

Definition is_soundness (a : argument) : bool :=
  match a with ArgSoundness => true | _ => false end.

Definition is_list_profiles (a : argument) : bool :=
  match a with ArgListProfiles => true | _ => false end.

Definition is_json (a : argument) : bool :=
  match a with ArgJson => true | _ => false end.

(** The value of the last occurrence of a value-taking option, [fallback]
    when there is none. *)
Fixpoint last_value (pick : argument -> option string)
  (fallback : option string) (argv : list argument) : option string :=
  match argv with
  | [] => fallback
  | a :: rest =>
      last_value pick
        (match pick a with Some text => Some text | None => fallback end) rest
  end.

Definition pick_profile (a : argument) : option string :=
  match a with ArgProfile key => Some key | _ => None end.

Definition pick_name (a : argument) : option string :=
  match a with ArgName text => Some text | _ => None end.

Definition pick_description (a : argument) : option string :=
  match a with ArgDescription text => Some text | _ => None end.

(** The tokens that are no option of the parser, in the order given. *)
Fixpoint unrecognized_tokens (argv : list argument) : list string :=
  match argv with
  | [] => []
  | ArgUnrecognized token :: rest => token :: unrecognized_tokens rest
  | _ :: rest => unrecognized_tokens rest
  end.

(** The namespace a command line describes when it is laid over [base]:
    a flag is set when it is set in [base] or occurs, a value is the last
    one given. *)
Definition overlay (base : Namespace) (argv : list argument) : Namespace :=
  {| ns_profile := last_value pick_profile (ns_profile base) argv;
     ns_custom := ns_custom base || existsb is_custom argv;
     ns_name := last_value pick_name (ns_name base) argv;
     ns_description := last_value pick_description (ns_description base) argv;
     ns_zk := ns_zk base || existsb is_zk argv;
     ns_fhe := ns_fhe base || existsb is_fhe argv;
     ns_open_source := ns_open_source base || existsb is_open_source argv;
     ns_audited := ns_audited base || existsb is_audited argv;
     ns_soundness := ns_soundness base || existsb is_soundness argv;
     ns_list_profiles :=
       ns_list_profiles base || existsb is_list_profiles argv;
     ns_json := ns_json base || existsb is_json argv |}.





(** * Properties *)

(** ** Scoring *)

Ltac flags p := destruct p as [n d [] [] [] [] []].

Lemma score_profile_unclamped (p : PrivacyProfile) :
  score_profile p = weight_sum p.
Proof. flags p; reflexivity. Qed.

Lemma weight_sum_range (p : PrivacyProfile) : 0 <= weight_sum p <= 100.
Proof. flags p; cbn; lia. Qed.

(** C1: for every profile, [score_profile] is the sum of the weights
    30, 30, 15, 15, 10 of the flags that are set, clamped to at most 100
    (the clamp never cuts anything off), and lies between 0 and 100. *)
Theorem score_profile_weights :
  forall p : PrivacyProfile,
    score_profile p = Z.min (weight_sum p) 100
    /\ score_profile p = weight_sum p
    /\ 0 <= score_profile p <= 100.
Proof.
  intro p.
  pose proof (weight_sum_range p) as Hr.
  rewrite score_profile_unclamped.
  repeat split; lia.
Qed.

(** C2: the three built-in profiles score 70, 55 and 55. *)
Theorem builtin_scores :
  option_map score_profile (Py.get PROFILES "aztec") = Some 70
  /\ option_map score_profile (Py.get PROFILES "zama") = Some 55
  /\ option_map score_profile (Py.get PROFILES "soundness") = Some 55.
Proof. repeat split; reflexivity. Qed.

(** C9: setting any one of the five flags, the other fields left as they
    are, never lowers the score. *)
Theorem score_profile_monotone :
  forall (n d : string) (a b c e : bool),
    score_profile (mkPrivacyProfile n d false a b c e)
      <= score_profile (mkPrivacyProfile n d true a b c e)
    /\ score_profile (mkPrivacyProfile n d a false b c e)
      <= score_profile (mkPrivacyProfile n d a true b c e)
    /\ score_profile (mkPrivacyProfile n d a b false c e)
      <= score_profile (mkPrivacyProfile n d a b true c e)
    /\ score_profile (mkPrivacyProfile n d a b c false e)
      <= score_profile (mkPrivacyProfile n d a b c true e)
    /\ score_profile (mkPrivacyProfile n d a b c e false)
      <= score_profile (mkPrivacyProfile n d a b c e true).
Proof.
  intros n d a b c e.
  rewrite !score_profile_unclamped.
  destruct a, b, c, e; cbn; lia.
Qed.

(** ** The registry *)

(** C4: the registry holds exactly the keys aztec, zama, soundness, in this
    order, each bound to the profile with the stated name and flags, and
    the listing names them in the same order. *)
Theorem registry_contents :
  map fst PROFILES = ["aztec"; "zama"; "soundness"]
  /\ Py.get PROFILES "aztec"
     = Some (mkPrivacyProfile "Aztec-like L2" (description aztec)
               true false true true true)
  /\ Py.get PROFILES "zama"
     = Some (mkPrivacyProfile "Zama-like FHE stack" (description zama)
               false true true false true)
  /\ Py.get PROFILES "soundness"
     = Some (mkPrivacyProfile "Soundness-focused lab" (description soundness)
               true false false true true)
  /\ main [ArgListProfiles]
     = Returned
         [ "Built-in example profiles related to Web3 privacy and soundness:";
           "- aztec: Aztec-like L2";
           "- zama: Zama-like FHE stack";
           "- soundness: Soundness-focused lab" ].
Proof. repeat split; reflexivity. Qed.

(** ** Custom profiles *)

Lemma or_else_nonempty (o : option string) (default : string) :
  Py.truthy default = true -> Py.truthy (Py.or_else o default) = true.
Proof.
  intro Hd. destruct o as [s|]; cbn; [|exact Hd].
  destruct s; cbn; [exact Hd | reflexivity].
Qed.

Lemma truthy_length (s : string) :
  Py.truthy s = true -> (0 < String.length s)%nat.
Proof. destruct s; cbn; [discriminate | lia]. Qed.

(** C7: with no name, description or feature flag given, the custom
    profile is "Custom Web3 project" with the fixed description, no
    feature, and score 0; and whatever the arguments are, the name and the
    description of a custom profile are not empty. *)
Theorem custom_profile_defaults :
  (forall (pr : option string) (cu lp js : bool),
      let args :=
        mkNamespace pr cu None None false false false false false lp js in
      profile_from_args args
      = mkPrivacyProfile "Custom Web3 project"
          "User-defined Web3 project privacy profile."
          false false false false false
      /\ score_profile (profile_from_args args) = 0)
  /\ parse_args [] = Parsed defaults
  /\ profile_from_args defaults
     = mkPrivacyProfile "Custom Web3 project"
         "User-defined Web3 project privacy profile."
         false false false false false
  /\ (forall args : Namespace,
         (0 < String.length (name (profile_from_args args)))%nat
         /\ (0 < String.length (description (profile_from_args args)))%nat).
Proof.
  split; [|split; [|split]].
  - intros pr cu lp js. split; reflexivity.
  - reflexivity.
  - reflexivity.
  - intro args. split; apply truthy_length; cbn; apply or_else_nonempty;
      reflexivity.
Qed.

(** ** The structured renderer *)

Lemma replace_quote_from (s : string) :
  Py.replace_from (String Py.dquote EmptyString)
    (String Py.backslash (String Py.dquote EmptyString)) O s
  = escape_quotes s.
Proof.
  induction s as [|c s IH]; [reflexivity|].
  cbn [Py.replace_from escape_quotes Py.startswith].
  rewrite Ascii.eqb_sym.
  destruct (Ascii.eqb c Py.dquote); cbn; rewrite IH; reflexivity.
Qed.

Lemma replace_quote (s : string) :
  Py.replace s (String Py.dquote EmptyString)
    (String Py.backslash (String Py.dquote EmptyString))
  = escape_quotes s.
Proof. apply replace_quote_from. Qed.

Lemma render_string (s : string) :
  render_value (VStr s) = quoted (escape_quotes s).
Proof. cbn [render_value]. rewrite replace_quote. reflexivity. Qed.

Lemma append_empty_r (s : string) : s ++ "" = s.
Proof. induction s as [|c s IH]; cbn; [|rewrite IH]; reflexivity. Qed.

Lemma append_assoc (a b c : string) : (a ++ b) ++ c = a ++ (b ++ c).
Proof. induction a as [|x a IH]; cbn; [|rewrite IH]; reflexivity. Qed.

Lemma export_data_score_last (p : PrivacyProfile) :
  export_data p = (asdict p ++ [("score", VInt (score_profile p))])%list.
Proof. reflexivity. Qed.

Lemma score_text_reads (p : PrivacyProfile) :
  Json.read_nat (Py.str (score_profile p)) = Some (score_profile p, EmptyString).
Proof. flags p; reflexivity. Qed.

(** C5: the structured text is, character for character, an opening
    brace, the eight entries name, description, uses_zk, uses_fhe,
    open_source, audited, soundness_focus, score in this order, each on a
    line of its own behind two spaces and each but the last followed by a
    comma, and a closing brace on the last line.  Keys and string values
    stand between double quotes (character 34), the double quotes inside a
    string value each behind a backslash; booleans are [true] or [false];
    the score is written without quotes in decimal digits: an unsigned
    integer literal whose value is the score.  Line ends are the line feed
    (character 10). *)
Theorem export_json_layout :
  forall p : PrivacyProfile,
    let q := String "034"%char EmptyString in
    let lf := String "010"%char EmptyString in
    map fst (export_data p)
    = [ "name"; "description"; "uses_zk"; "uses_fhe"; "open_source";
        "audited"; "soundness_focus"; "score" ]
    /\ exists digits : string,
         Json.read_nat digits = Some (score_profile p, EmptyString)
         /\ export_json p
            = "{" ++ lf
              ++ "  " ++ q ++ "name" ++ q ++ ": "
                 ++ q ++ escape_quotes (name p) ++ q ++ "," ++ lf
              ++ "  " ++ q ++ "description" ++ q ++ ": "
                 ++ q ++ escape_quotes (description p) ++ q ++ "," ++ lf
              ++ "  " ++ q ++ "uses_zk" ++ q ++ ": "
                 ++ (if uses_zk p then "true" else "false") ++ "," ++ lf
              ++ "  " ++ q ++ "uses_fhe" ++ q ++ ": "
                 ++ (if uses_fhe p then "true" else "false") ++ "," ++ lf
              ++ "  " ++ q ++ "open_source" ++ q ++ ": "
                 ++ (if open_source p then "true" else "false") ++ "," ++ lf
              ++ "  " ++ q ++ "audited" ++ q ++ ": "
                 ++ (if audited p then "true" else "false") ++ "," ++ lf
              ++ "  " ++ q ++ "soundness_focus" ++ q ++ ": "
                 ++ (if soundness_focus p then "true" else "false")
                 ++ "," ++ lf
              ++ "  " ++ q ++ "score" ++ q ++ ": " ++ digits ++ lf
              ++ "}".
Proof.
  intro p. cbv zeta. split; [reflexivity|].
  exists (Py.str (score_profile p)). split; [apply score_text_reads|].
  unfold export_json. rewrite export_data_score_last.
  unfold asdict.
  cbn [List.app List.length Z.of_nat Pos.of_succ_nat Pos.succ export_entries].
  rewrite !render_string.
  cbn [render_value Z.add Z.sub Z.ltb Z.compare Z.opp Z.pos_sub Pos.add
       Pos.succ Pos.compare Pos.compare_cont Pos.pred_double].
  rewrite append_empty_r.
  unfold Py.join, quoted, Py.nl. cbn [String.concat].
  repeat (progress (rewrite ?append_assoc; cbn [append])).
  reflexivity.
Qed.

(** The reader accepts what the renderer writes for the built-in
    profiles, and gets the data back. *)
Lemma loads_export_builtin :
  Json.loads (export_json aztec) = Some (export_data aztec)
  /\ Json.loads (export_json zama) = Some (export_data zama)
  /\ Json.loads (export_json soundness) = Some (export_data soundness).
Proof. repeat split; vm_compute; reflexivity. Qed.

(** C10: the string escaping of the structured renderer puts a backslash
    before each double quote and copies every other character, a
    backslash and a line feed included; so for a profile whose name is a
    single backslash, and for one whose name is a single line feed, the
    text written is not JSON at all, and for the name backslash-n the text
    reads back as a different name. *)
Theorem escaping_only_quotes :
  (forall s : string,
      Py.replace s (String Py.dquote EmptyString)
        (String Py.backslash (String Py.dquote EmptyString))
      = escape_quotes s)
  /\ (forall s : string, render_value (VStr s) = quoted (escape_quotes s))
  /\ escape_quotes (String Py.backslash EmptyString)
     = String Py.backslash EmptyString
  /\ escape_quotes Py.nl = Py.nl
  /\ (let p := mkPrivacyProfile (String Py.backslash EmptyString) "d"
                 true false false false false in
      occurs Py.backslash (name p) = true
      /\ Json.loads (export_json p) = None)
  /\ (let p := mkPrivacyProfile Py.nl "d" true false false false false in
      occurs Py.newline (name p) = true
      /\ Json.loads (export_json p) = None)
  /\ (let p := mkPrivacyProfile (String Py.backslash "n") "d"
                 true false false false false in
      occurs Py.backslash (name p) = true
      /\ Json.loads (export_json p)
         = Some (export_data
                   (mkPrivacyProfile Py.nl "d" true false false false false))).
Proof.
  split; [exact replace_quote|].
  split; [exact render_string|].
  repeat split; vm_compute; reflexivity.
Qed.

(** ** Profile lookup *)

Lemma lower_char_idem (c : ascii) :
  Py.lower_char (Py.lower_char c) = Py.lower_char c.
Proof. destruct c as [[] [] [] [] [] [] [] []]; reflexivity. Qed.

Lemma lower_idem (s : string) : Py.lower (Py.lower s) = Py.lower s.
Proof.
  induction s as [|c s IH]; cbn; [reflexivity|].
  rewrite lower_char_idem, IH. reflexivity.
Qed.

Lemma truthy_lower (s : string) : Py.truthy (Py.lower s) = Py.truthy s.
Proof. destruct s; reflexivity. Qed.

(** C6: the registry is searched for the lower-cased key, so a key and its
    lower-cased form give the same run; in particular aztec, AZTEC and
    Aztec all select the aztec profile. *)
Theorem profile_lookup_case_insensitive :
  (forall (args : Namespace) (k : string),
      main_parsed (with_profile (Some k) args)
      = main_parsed (with_profile (Some (Py.lower k)) args))
  /\ Py.lower "aztec" = "aztec"
  /\ Py.lower "AZTEC" = "aztec"
  /\ Py.lower "Aztec" = "aztec"
  /\ (forall args : Namespace,
         let run k :=
           main_parsed (with_list_profiles false (with_profile (Some k) args)) in
         run "aztec"
         = (if ns_json args
            then [export_json aztec]
            else [summarize_profile aztec])
         /\ run "AZTEC" = run "aztec"
         /\ run "Aztec" = run "aztec").
Proof.
  split.
  - intros args k. unfold main_parsed. cbn [with_profile ns_list_profiles
      ns_profile ns_json].
    rewrite truthy_lower, lower_idem.
    destruct (ns_list_profiles args); [reflexivity|].
    destruct (Py.truthy k); reflexivity.
  - repeat split; reflexivity.
Qed.

(** ** The unknown-key branch *)

Lemma summarize_profile_head (p : PrivacyProfile) :
  String.get 0 (summarize_profile p) = Some "N"%char.
Proof. reflexivity. Qed.

Lemma export_json_head (p : PrivacyProfile) :
  String.get 0 (export_json p) = Some "{"%char.
Proof. reflexivity. Qed.

Lemma listing_heads (x : string) :
  In x (unknown_message :: list_profiles) ->
  String.get 0 x = Some "U"%char
  \/ String.get 0 x = Some "B"%char
  \/ String.get 0 x = Some "-"%char.
Proof.
  intro Hin. simpl in Hin.
  destruct Hin as [<-|[<-|[<-|[<-|[<-|[]]]]]]; cbn; auto.
Qed.

Lemma listing_renders_nothing (p : PrivacyProfile) :
  ~ In (export_json p) (unknown_message :: list_profiles)
  /\ ~ In (summarize_profile p) (unknown_message :: list_profiles).
Proof.
  split; intro Hin; apply listing_heads in Hin.
  - rewrite export_json_head in Hin.
    destruct Hin as [H|[H|H]]; discriminate H.
  - rewrite summarize_profile_head in Hin.
    destruct Hin as [H|[H|H]]; discriminate H.
Qed.

(** C3, as the code has it: when the parser accepts the command line
    (it returns a namespace instead of leaving through the help or a usage
    error), [--list-profiles] is not given and the key given with
    [--profile] is not empty and, lower-cased, not in the registry, the
    run prints the unknown-key message and then the listing of
    [--list-profiles] (header and one line per built-in key with its
    name), prints no rendering of any profile, and ends with status 0. *)
Theorem unknown_profile_listing :
  forall (argv : list argument) (args : Namespace) (k : string),
    parse_args argv = Parsed args ->
    ns_list_profiles args = false ->
    ns_profile args = Some k ->
    Py.truthy k = true ->
    Py.get PROFILES (Py.lower k) = None ->
    main argv
    = Returned (unknown_message :: main_parsed (with_list_profiles true args))
    /\ printed_lines (main argv)
       = [ "Unknown profile key. Available options:";
           "Built-in example profiles related to Web3 privacy and soundness:";
           "- aztec: Aztec-like L2";
           "- zama: Zama-like FHE stack";
           "- soundness: Soundness-focused lab" ]
    /\ exit_status (main argv) = 0
    /\ (forall p : PrivacyProfile,
           ~ In (export_json p) (printed_lines (main argv))
           /\ ~ In (summarize_profile p) (printed_lines (main argv))).
Proof.
  intros argv args k Hparse Hlist Hprofile Hk Hget.
  assert (Hmain : main argv = Returned (unknown_message :: list_profiles)).
  { unfold main. rewrite Hparse. unfold main_parsed.
    rewrite Hlist, Hprofile, Hk. cbn zeta. rewrite Hget. reflexivity. }
  rewrite Hmain. cbn [printed_lines exit_status].
  repeat split; try reflexivity; apply listing_renders_nothing.
Qed.

Lemma unknown_profile_listing_witness :
  parse_args [ArgProfile "foo"] = Parsed (with_profile (Some "foo") defaults)
  /\ main [ArgProfile "foo"]
     = Returned
         (unknown_message
            :: main_parsed
                 (with_list_profiles true (with_profile (Some "foo") defaults)))
  /\ exit_status (main [ArgProfile "foo"]) = 0.
Proof.
  split; [reflexivity|].
  destruct (unknown_profile_listing [ArgProfile "foo"]
              (with_profile (Some "foo") defaults) "foo")
    as (Hmain & _ & Hstatus & _);
    [reflexivity | reflexivity | reflexivity | reflexivity | reflexivity |].
  split; [exact Hmain | exact Hstatus].
Defined.

(** C3 as stated fails: with [--list-profiles] the unknown-key message is
    not printed; with an empty key the custom profile is scored and
    rendered; and when the parser does not accept the command line
    ([--custom] as well, an unrecognised argument, the help option) the
    run ends in the parser, with nothing printed by [main] and status 2
    for the usage errors. *)
Lemma unknown_profile_not_always_reported :
  (ns_profile (with_list_profiles true (with_profile (Some "foo") defaults))
   = Some "foo"
   /\ Py.get PROFILES (Py.lower "foo") = None
   /\ main [ArgProfile "foo"; ArgListProfiles] = Returned list_profiles
   /\ ~ In unknown_message
        (printed_lines (main [ArgProfile "foo"; ArgListProfiles])))
  /\ (ns_profile (with_profile (Some "") defaults) = Some ""
      /\ Py.get PROFILES (Py.lower "") = None
      /\ main [ArgProfile ""]
         = Returned [summarize_profile (profile_from_args defaults)])
  /\ (main [ArgProfile "foo"; ArgCustom]
      = UsageExit (NotAllowedWith "--custom" "--profile")
      /\ exit_status (main [ArgProfile "foo"; ArgCustom]) = 2
      /\ printed_lines (main [ArgProfile "foo"; ArgCustom]) = [])
  /\ (main [ArgProfile "foo"; ArgUnrecognized "--bogus"]
      = UsageExit (UnrecognizedArguments ["--bogus"])
      /\ exit_status (main [ArgProfile "foo"; ArgUnrecognized "--bogus"]) = 2)
  /\ (main [ArgProfile "foo"; ArgHelp] = HelpExit
      /\ printed_lines (main [ArgProfile "foo"; ArgHelp]) = []).
Proof.
  repeat split; try reflexivity.
  cbn. intros [H|[H|[H|[H|H]]]]; try discriminate H; exact H.
Qed.

(** ** The exclusive group *)

Lemma consume_conflict (before after : list argument) :
  forall (sp sc : bool) (args : Namespace) (extras : list string),
    existsb is_help before = false ->
    sp || existsb is_profile before = true ->
    sc || existsb is_custom before = true ->
    sp && sc = false ->
    consume sp sc args extras (before ++ after)%list
    = UsageError (NotAllowedWith "--custom" "--profile")
    \/ consume sp sc args extras (before ++ after)%list
       = UsageError (NotAllowedWith "--profile" "--custom").
Proof.
  induction before as [|a before IH]; intros sp sc args extras Hh Hp Hc Hx.
  - cbn in Hp, Hc. rewrite orb_false_r in Hp, Hc. subst. discriminate Hx.
  - destruct a; cbn in Hh, Hp, Hc; try discriminate Hh;
      cbn [List.app consume];
      try (apply IH; assumption).
    + destruct sc; [right; reflexivity|].
      apply IH; [assumption | reflexivity | assumption | reflexivity].
    + destruct sp; [left; reflexivity|].
      apply IH; [assumption | assumption | reflexivity | reflexivity].
Qed.

(** C8, as the code has it: when [--profile] and [--custom] are both among
    the options up to some point of the command line and the help option
    is not, parsing ends in the usage error of the exclusive group; the
    exit status is 2 and [main] prints nothing. *)
Theorem exclusive_group_usage_error :
  forall before after : list argument,
    existsb is_profile before = true ->
    existsb is_custom before = true ->
    existsb is_help before = false ->
    (main (before ++ after)%list
     = UsageExit (NotAllowedWith "--custom" "--profile")
     \/ main (before ++ after)%list
        = UsageExit (NotAllowedWith "--profile" "--custom"))
    /\ exit_status (main (before ++ after)%list) = 2
    /\ printed_lines (main (before ++ after)%list) = [].
Proof.
  intros before after Hp Hc Hh.
  unfold main, parse_args.
  destruct (consume_conflict before after false false defaults [] Hh Hp Hc
              eq_refl) as [H|H]; rewrite H; cbn; auto.
Qed.

Lemma exclusive_group_usage_error_witness :
  existsb is_profile [ArgProfile "aztec"; ArgCustom] = true
  /\ existsb is_custom [ArgProfile "aztec"; ArgCustom] = true
  /\ existsb is_help [ArgProfile "aztec"; ArgCustom] = false
  /\ exit_status (main ([ArgProfile "aztec"; ArgCustom] ++ [ArgJson])%list) = 2.
Proof.
  split; [reflexivity|]. split; [reflexivity|]. split; [reflexivity|].
  apply (exclusive_group_usage_error [ArgProfile "aztec"; ArgCustom] [ArgJson]);
    reflexivity.
Defined.

(** C8 as stated fails: with the help option first, the help is printed
    and the run ends with status 0 although both options are given. *)
Lemma help_before_exclusive_group :
  existsb is_profile [ArgHelp; ArgProfile "aztec"; ArgCustom] = true
  /\ existsb is_custom [ArgHelp; ArgProfile "aztec"; ArgCustom] = true
  /\ main [ArgHelp; ArgProfile "aztec"; ArgCustom] = HelpExit
  /\ exit_status (main [ArgHelp; ArgProfile "aztec"; ArgCustom]) = 0.
Proof. repeat split; reflexivity. Qed.

(** * Further properties *)

(** ** More on scoring *)

(** X1: the score is 0 exactly when no flag is set, 100 exactly when all five
    are, and always a multiple of 5. *)
Theorem score_profile_extremes :
  forall p : PrivacyProfile,
    (score_profile p =? 0)
    = negb (uses_zk p || uses_fhe p || open_source p || audited p
            || soundness_focus p)
    /\ (score_profile p =? 100)
       = (uses_zk p && uses_fhe p && open_source p && audited p
          && soundness_focus p)
    /\ score_profile p mod 5 = 0.
Proof. intro p. flags p; repeat split; reflexivity. Qed.

(** X2: setting a flag that was clear raises the score by exactly the weight
    of that flag: 30, 30, 15, 15 and 10. *)
Theorem score_profile_increments :
  forall (n d : string) (a b c e : bool),
    score_profile (mkPrivacyProfile n d true a b c e)
    = score_profile (mkPrivacyProfile n d false a b c e) + 30
    /\ score_profile (mkPrivacyProfile n d a true b c e)
       = score_profile (mkPrivacyProfile n d a false b c e) + 30
    /\ score_profile (mkPrivacyProfile n d a b true c e)
       = score_profile (mkPrivacyProfile n d a b false c e) + 15
    /\ score_profile (mkPrivacyProfile n d a b c true e)
       = score_profile (mkPrivacyProfile n d a b c false e) + 15
    /\ score_profile (mkPrivacyProfile n d a b c e true)
       = score_profile (mkPrivacyProfile n d a b c e false) + 10.
Proof.
  intros n d a b c e.
  rewrite !score_profile_unclamped.
  destruct a, b, c, e; cbn; lia.
Qed.

(** ** The text renderer *)

(** X3: the report is, character for character, the name line, the
    description line, an empty line, the header, the five feature lines
    in the order zk, fhe, open source, audits, soundness, each behind two
    spaces, a dash and a space and ending in yes or no, an empty line, the
    score line, an empty line and the two closing notes; the lines are
    separated by line feeds (character 10) and the last one has none; the
    number on the score line is an unsigned integer literal whose value is
    the sum of the weights of the flags that are set. *)
Theorem summarize_profile_layout :
  forall p : PrivacyProfile,
    let lf := String "010"%char EmptyString in
    exists digits : string,
      Json.read_nat digits = Some (weight_sum p, EmptyString)
      /\ summarize_profile p
         = "Name: " ++ name p ++ lf
           ++ "Description: " ++ description p ++ lf
           ++ lf
           ++ "Features:" ++ lf
           ++ "  - Uses zero-knowledge proofs: "
              ++ (if uses_zk p then "yes" else "no") ++ lf
           ++ "  - Uses fully homomorphic encryption: "
              ++ (if uses_fhe p then "yes" else "no") ++ lf
           ++ "  - Open source code: "
              ++ (if open_source p then "yes" else "no") ++ lf
           ++ "  - External audits: "
              ++ (if audited p then "yes" else "no") ++ lf
           ++ "  - Formal soundness focus: "
              ++ (if soundness_focus p then "yes" else "no") ++ lf
           ++ lf
           ++ "Estimated privacy-strength score: " ++ digits ++ "/100" ++ lf
           ++ lf
           ++ "Note: This score is a toy heuristic for educational purposes only."
           ++ lf
           ++ "Always rely on official audits, specifications, and documentation.".
Proof.
  intro p. cbv zeta.
  exists (Py.str (score_profile p)). split.
  - rewrite <- score_profile_unclamped. apply score_text_reads.
  - unfold summarize_profile, Py.join, Py.nl, yes_no.
    cbn [List.app map String.concat].
    repeat (progress (rewrite ?append_assoc; cbn [append])).
    reflexivity.
Qed.

(** ** The dictionary behind the structured renderer *)

Lemma get_set (V : Type) (d : Py.dict V) (k k' : string) (v : V) :
  Py.get (Py.set d k v) k'
  = if String.eqb k k' then Some v else Py.get d k'.
Proof.
  induction d as [|[k0 v0] d IH]; cbn.
  - reflexivity.
  - destruct (String.eqb k0 k) eqn:E0; cbn.
    + apply String.eqb_eq in E0. subst k0.
      destruct (String.eqb k k'); reflexivity.
    + rewrite IH. destruct (String.eqb k0 k') eqn:E1; [|reflexivity].
      apply String.eqb_eq in E1. subst k0.
      rewrite String.eqb_sym, E0. reflexivity.
Qed.

Lemma set_keys (V : Type) (d : Py.dict V) (k : string) (v : V) :
  map fst (Py.set d k v)
  = if existsb (fun k0 => String.eqb k0 k) (map fst d)
    then map fst d
    else (map fst d ++ [k])%list.
Proof.
  induction d as [|[k0 v0] d IH]; cbn; [reflexivity|].
  destruct (String.eqb k0 k); cbn; [reflexivity|].
  rewrite IH. destruct (existsb _ (map fst d)); reflexivity.
Qed.

(** X6: after [d[k] = v], reading [k] gives [v] and reading any other key
    gives what [d] had; the keys keep their order, and a key that is new
    goes last. *)
Theorem dict_set_then_get :
  forall (V : Type) (d : Py.dict V) (k k' : string) (v : V),
    Py.get (Py.set d k v) k'
    = (if String.eqb k k' then Some v else Py.get d k')
    /\ map fst (Py.set d k v)
       = (if existsb (fun k0 => String.eqb k0 k) (map fst d)
          then map fst d
          else (map fst d ++ [k])%list).
Proof. intros V d k k' v. split; [apply get_set | apply set_keys]. Qed.

(** In the data the structured renderer writes, the score is found under
    [score] and every other key reads as in [asdict]. *)
Theorem export_data_lookup :
  forall (p : PrivacyProfile) (k : string),
    Py.get (export_data p) k
    = if String.eqb "score" k
      then Some (VInt (score_profile p))
      else Py.get (asdict p) k.
Proof. intros p k. unfold export_data. apply get_set. Qed.

(** ** Strings without double quotes *)




(** ** Reading the structured text back *)













(** ** The parser on a whole command line *)

Ltac overlay_eq :=
  unfold overlay; cbn; rewrite ?orb_true_r; reflexivity.

Lemma consume_end (argv : list argument) :
  forall (sp sc : bool) (args : Namespace) (extras : list string),
    existsb is_help argv = false ->
    (sp || existsb is_profile argv) && (sc || existsb is_custom argv) = false ->
    consume sp sc args extras argv
    = consume sp sc (overlay args argv)
        (rev (unrecognized_tokens argv) ++ extras)%list [].
Proof.
  induction argv as [|a argv IH]; intros sp sc args extras Hh Hx.
  - destruct args. unfold overlay. cbn. rewrite ?orb_false_r. reflexivity.
  - destruct a; cbn [existsb is_help orb] in Hh; try discriminate Hh;
      cbn [existsb is_profile is_custom orb] in Hx;
      cbn [consume unrecognized_tokens].
    + (* --profile *)
      rewrite orb_true_r in Hx. cbn [andb] in Hx.
      apply orb_false_iff in Hx. destruct Hx as [Hsc Hc]. subst sc.
      rewrite (IH true false); [|assumption|cbn; exact Hc].
      cbn [consume]. f_equal. overlay_eq.
    + (* --custom *)
      rewrite orb_true_r, andb_true_r in Hx.
      apply orb_false_iff in Hx. destruct Hx as [Hsp Hp]. subst sp.
      rewrite (IH false true); [|assumption|cbn; rewrite Hp; reflexivity].
      cbn [consume]. f_equal. overlay_eq.
    + rewrite (IH sp sc); [|assumption|assumption].
      cbn [consume]. f_equal. overlay_eq.
    + rewrite (IH sp sc); [|assumption|assumption].
      cbn [consume]. f_equal. overlay_eq.
    + rewrite (IH sp sc); [|assumption|assumption].
      cbn [consume]. f_equal. overlay_eq.
    + rewrite (IH sp sc); [|assumption|assumption].
      cbn [consume]. f_equal. overlay_eq.
    + rewrite (IH sp sc); [|assumption|assumption].
      cbn [consume]. f_equal. overlay_eq.
    + rewrite (IH sp sc); [|assumption|assumption].
      cbn [consume]. f_equal. overlay_eq.
    + rewrite (IH sp sc); [|assumption|assumption].
      cbn [consume]. f_equal. overlay_eq.
    + rewrite (IH sp sc); [|assumption|assumption].
      cbn [consume]. f_equal. overlay_eq.
    + rewrite (IH sp sc); [|assumption|assumption].
      cbn [consume]. f_equal. overlay_eq.
    + (* an unrecognised token *)
      rewrite (IH sp sc); [|assumption|assumption].
      cbn [consume rev]. rewrite <- app_assoc. cbn [List.app].
      reflexivity.
Qed.

Lemma no_unrecognized_tokens (argv : list argument) :
  existsb is_unrecognized argv = false -> unrecognized_tokens argv = [].
Proof.
  induction argv as [|a argv IH]; [reflexivity|].
  destruct a; cbn; try exact IH. discriminate.
Qed.

Lemma some_unrecognized_token (argv : list argument) :
  existsb is_unrecognized argv = true ->
  exists token tokens, rev (unrecognized_tokens argv) = token :: tokens.
Proof.
  intro H.
  destruct (rev (unrecognized_tokens argv)) as [|token tokens] eqn:E;
    [|eauto].
  apply (f_equal (@rev string)) in E. rewrite rev_involutive in E. cbn in E.
  exfalso. induction argv as [|a argv IH]; [discriminate H|].
  destruct a; cbn in H, E; try (apply IH; assumption). discriminate E.
Qed.

Lemma parse_args_overlay (argv : list argument) :
  existsb is_help argv = false ->
  existsb is_unrecognized argv = false ->
  existsb is_profile argv && existsb is_custom argv = false ->
  parse_args argv = Parsed (overlay defaults argv).
Proof.
  intros Hh Hu Hx. unfold parse_args.
  rewrite consume_end by assumption.
  rewrite (no_unrecognized_tokens argv Hu). reflexivity.
Qed.

(** X7: a command line made of recognised option occurrences only (every
    value-taking option with its value, no flag with a value attached),
    without the help option and without both [--profile] and [--custom],
    is accepted; in the namespace a flag is true exactly when it occurs,
    however often and wherever, and [profile], [name] and [description]
    hold the value given last, or [None]. *)
Theorem parse_args_accepts :
  forall argv : list argument,
    existsb is_help argv = false ->
    existsb is_unrecognized argv = false ->
    existsb is_profile argv && existsb is_custom argv = false ->
    parse_args argv
    = Parsed
        (mkNamespace
           (last_value pick_profile None argv)
           (existsb is_custom argv)
           (last_value pick_name None argv)
           (last_value pick_description None argv)
           (existsb is_zk argv)
           (existsb is_fhe argv)
           (existsb is_open_source argv)
           (existsb is_audited argv)
           (existsb is_soundness argv)
           (existsb is_list_profiles argv)
           (existsb is_json argv)).
Proof.
  intros argv Hh Hu Hx.
  rewrite (parse_args_overlay argv Hh Hu Hx). reflexivity.
Qed.

Lemma parse_args_accepts_witness :
  parse_args [ArgName "a"; ArgZk; ArgName "b"; ArgJson; ArgZk]
  = Parsed
      (mkNamespace None false (Some "b") None true false false false false
         false true).
Proof.
  apply (parse_args_accepts [ArgName "a"; ArgZk; ArgName "b"; ArgJson; ArgZk]);
    reflexivity.
Defined.

(** X8: on a command line made of recognised option occurrences and of
    arguments the parser sets aside as unrecognised, without the help
    option and without both [--profile] and [--custom], the run ends with
    the usage error that lists all the unrecognised arguments in the order
    given, exit status 2, after all options have been read. *)
Theorem parse_args_unrecognized :
  forall argv : list argument,
    existsb is_help argv = false ->
    existsb is_unrecognized argv = true ->
    existsb is_profile argv && existsb is_custom argv = false ->
    main argv = UsageExit (UnrecognizedArguments (unrecognized_tokens argv))
    /\ exit_status (main argv) = 2.
Proof.
  intros argv Hh Hu Hx. unfold main, parse_args.
  rewrite consume_end by assumption.
  destruct (some_unrecognized_token argv Hu) as (token & tokens & E).
  rewrite app_nil_r, E. cbn [consume]. rewrite <- E, rev_involutive.
  split; reflexivity.
Qed.

Lemma parse_args_unrecognized_witness :
  main [ArgUnrecognized "--bogus"; ArgZk; ArgUnrecognized "extra"]
  = UsageExit (UnrecognizedArguments ["--bogus"; "extra"]).
Proof.
  apply (parse_args_unrecognized
           [ArgUnrecognized "--bogus"; ArgZk; ArgUnrecognized "extra"]);
    reflexivity.
Defined.

Lemma consume_help (before after : list argument) :
  forall (sp sc : bool) (args : Namespace) (extras : list string),
    (sp || existsb is_profile before) && (sc || existsb is_custom before)
    = false ->
    consume sp sc args extras (before ++ ArgHelp :: after)%list = HelpRequested.
Proof.
  induction before as [|a before IH]; intros sp sc args extras Hx.
  - reflexivity.
  - destruct a; cbn [existsb is_profile is_custom orb] in Hx;
      cbn [List.app consume]; try reflexivity; try (apply IH; exact Hx).
    + rewrite orb_true_r in Hx. cbn [andb] in Hx.
      apply orb_false_iff in Hx. destruct Hx as [Hsc Hc]. subst sc.
      apply IH. cbn. exact Hc.
    + rewrite orb_true_r, andb_true_r in Hx.
      apply orb_false_iff in Hx. destruct Hx as [Hsp Hp]. subst sp.
      apply IH. cbn. rewrite Hp. reflexivity.
Qed.

(** X9: on a command line made of recognised option occurrences and of
    arguments the parser sets aside as unrecognised, the help option ends
    the run with status 0 and without any output of [main] as soon as it
    is reached: the occurrences after it have no effect, and unrecognised
    arguments before it are not reported; only both [--profile] and
    [--custom] before it prevent this. *)
Theorem help_exits_first :
  forall before after : list argument,
    existsb is_profile before && existsb is_custom before = false ->
    main (before ++ ArgHelp :: after)%list = HelpExit
    /\ exit_status (main (before ++ ArgHelp :: after)%list) = 0
    /\ printed_lines (main (before ++ ArgHelp :: after)%list) = [].
Proof.
  intros before after Hx. unfold main, parse_args.
  rewrite consume_help by exact Hx. repeat split.
Qed.

Lemma help_exits_first_witness :
  main ([ArgUnrecognized "--bogus"; ArgProfile "aztec"]
          ++ ArgHelp :: [ArgCustom])%list
  = HelpExit.
Proof.
  apply (help_exits_first [ArgUnrecognized "--bogus"; ArgProfile "aztec"]
           [ArgCustom]).
  reflexivity.
Defined.

(** ** What [main] prints *)

(** X10: on an accepted command line with [--list-profiles], the run prints the
    listing and nothing else, whatever the other options are. *)
Theorem list_profiles_first :
  forall argv : list argument,
    existsb is_help argv = false ->
    existsb is_unrecognized argv = false ->
    existsb is_profile argv && existsb is_custom argv = false ->
    existsb is_list_profiles argv = true ->
    main argv
    = Returned
        [ "Built-in example profiles related to Web3 privacy and soundness:";
          "- aztec: Aztec-like L2";
          "- zama: Zama-like FHE stack";
          "- soundness: Soundness-focused lab" ].
Proof.
  intros argv Hh Hu Hx Hl. unfold main.
  rewrite parse_args_overlay by assumption.
  unfold main_parsed, overlay. cbn [ns_list_profiles defaults orb].
  rewrite Hl. reflexivity.
Qed.

Lemma list_profiles_first_witness :
  main [ArgProfile "nope"; ArgJson; ArgListProfiles; ArgZk] = Returned list_profiles.
Proof.
  apply (list_profiles_first [ArgProfile "nope"; ArgJson; ArgListProfiles; ArgZk]);
    reflexivity.
Defined.

Lemma profile_from_args_cases (args : Namespace) :
  profile_from_args args
  = mkPrivacyProfile
      (match ns_name args with
       | Some (String c text) => String c text
       | Some EmptyString => "Custom Web3 project"
       | None => "Custom Web3 project"
       end)
      (match ns_description args with
       | Some (String c text) => String c text
       | Some EmptyString => "User-defined Web3 project privacy profile."
       | None => "User-defined Web3 project privacy profile."
       end)
      (ns_zk args) (ns_fhe args) (ns_open_source args) (ns_audited args)
      (ns_soundness args).
Proof.
  unfold profile_from_args, Py.or_else.
  destruct (ns_name args) as [[|c1 t1]|];
    destruct (ns_description args) as [[|c2 t2]|]; reflexivity.
Qed.

(** X11: on an accepted command line without [--profile] and without
    [--list-profiles], the run prints one text: the rendering, structured
    with [--json] and as a report without, of the profile that has exactly
    the feature flags given, as name the last [--name] value when there is
    one and it is not empty and "Custom Web3 project" otherwise, and as
    description the last [--description] value when there is one and it is
    not empty and the fixed default otherwise. *)
Theorem custom_run :
  forall argv : list argument,
    existsb is_help argv = false ->
    existsb is_unrecognized argv = false ->
    existsb is_profile argv = false ->
    existsb is_list_profiles argv = false ->
    let profile :=
      mkPrivacyProfile
        (match last_value pick_name None argv with
         | Some (String c text) => String c text
         | Some EmptyString => "Custom Web3 project"
         | None => "Custom Web3 project"
         end)
        (match last_value pick_description None argv with
         | Some (String c text) => String c text
         | Some EmptyString => "User-defined Web3 project privacy profile."
         | None => "User-defined Web3 project privacy profile."
         end)
        (existsb is_zk argv) (existsb is_fhe argv)
        (existsb is_open_source argv) (existsb is_audited argv)
        (existsb is_soundness argv) in
    main argv
    = Returned
        [ if existsb is_json argv
          then export_json profile
          else summarize_profile profile ].
Proof.
  intros argv Hh Hu Hp Hl profile. unfold main.
  rewrite parse_args_overlay; [|assumption|assumption|rewrite Hp; reflexivity].
  unfold main_parsed, overlay.
  cbn [ns_list_profiles ns_profile ns_json defaults orb].
  rewrite Hl.
  assert (Hnone : last_value pick_profile None argv = None).
  { clear - Hp. induction argv as [|a argv IH]; [reflexivity|].
    cbn in Hp. apply orb_false_iff in Hp. destruct Hp as [Ha Hp].
    destruct a; cbn in Ha; try discriminate Ha; cbn; apply IH; exact Hp. }
  rewrite Hnone. cbv zeta.
  rewrite !profile_from_args_cases.
  cbn [ns_name ns_description ns_zk ns_fhe ns_open_source ns_audited
       ns_soundness orb].
  destruct (existsb is_json argv); reflexivity.
Qed.

Lemma custom_run_witness :
  main [ArgCustom; ArgName ""; ArgZk; ArgDescription "first"; ArgAudited;
        ArgName "Lab"; ArgDescription ""; ArgJson]
  = Returned
      [ export_json
          (mkPrivacyProfile "Lab"
             "User-defined Web3 project privacy profile."
             true false false true false) ].
Proof.
  apply (custom_run
           [ArgCustom; ArgName ""; ArgZk; ArgDescription "first"; ArgAudited;
            ArgName "Lab"; ArgDescription ""; ArgJson]);
    reflexivity.
Defined.



(** ** [--custom] changes nothing *)





